(** * The LGE climate adapter (custom_components/smartthinq_sensors/climate.py)

    A shallow embedding of the climate platform of the SmartThinQ
    integration and the properties its specification states about it.

    The adapter sits between two systems whose code is elsewhere: the
    vendor device objects ([LGEDevice], [AirConditionerDevice]) and the
    host platform's entity classes.  The embedding keeps that boundary:
    - Python dictionaries are insertion-ordered association lists
      ([PyDict]), since the reverse table is built by a comprehension
      that walks the forward table in order and overwrites on collision;
    - the adapter object, the device objects it points to and the log of
      device calls form an explicit store ([World]), threaded through a
      state-and-exception monad ([M]);
    - what a device method does is unknown here, so it is an interface
      ([DeviceDriver]) every statement quantifies over. *)

From Stdlib Require Import ZArith List.
From Stdlib Require QArith.
From stdpp Require Import base option list strings gmap.

Import ListNotations.
Local Open Scope string_scope.
Local Open Scope list_scope.

(** ** Python dictionaries *)

Module PyDict.

(** A [dict] keeps its items in insertion order, one item per key. *)
Definition dict (K V : Type) : Type := list (K * V).

Section Ops.
Context {K V : Type} `{EqDecision K}.

(** [d.get(k)], with [None] for a missing key. *)
Fixpoint get (d : dict K V) (k : K) : option V :=
  match d with
  | [] => None
  | (k', v) :: d' => if decide (k = k') then Some v else get d' k
  end.

(** [k in d] *)
Definition contains (d : dict K V) (k : K) : bool :=
  match get d k with Some _ => true | None => false end.

(** [d[k] = v]: an existing key keeps its place and takes the new value,
    a new key goes to the end. *)
Fixpoint setitem (d : dict K V) (k : K) (v : V) : dict K V :=
  match d with
  | [] => [(k, v)]
  | (k', v') :: d' =>
      if decide (k = k') then (k', v) :: d' else (k', v') :: setitem d' k v
  end.

(** [d.items()] *)
Definition items (d : dict K V) : list (K * V) := d.

(** A display [{k1: v1, ..., kn: vn}]: the items are stored left to
    right. *)
Definition display (kvs : list (K * V)) : dict K V :=
  fold_left (fun d kv => setitem d (fst kv) (snd kv)) kvs [].

End Ops.

(** [{v: k for k, v in d.items()}] *)
Definition inverted {K V : Type} `{EqDecision V} (d : dict K V) : dict V K :=
  fold_left (fun acc kv => setitem acc (snd kv) (fst kv)) (items d) [].

End PyDict.

(** ** Names imported from outside the file *)

(** Modelled from the spec: [ACMode] is declared in wideq/ac.py, which is
    not part of the sources at hand.  The adapter only uses the [name] of
    six of its members, and the name of an enumeration member is the
    identifier it is declared under. *)
Module ACMode.
Definition AI_name : string := "AI".
Definition HEAT_name : string := "HEAT".
Definition DRY_name : string := "DRY".
Definition COOL_name : string := "COOL".
Definition FAN_name : string := "FAN".
Definition ACO_name : string := "ACO".
End ACMode.

(** Modelled from the spec: the HVAC mode constants come from the host
    platform (homeassistant.components.climate.const).  The spec lists
    them as auto, heat, dry, cool, fan-only and heat-cool; the values
    below are the platform's spellings, and OFF is its seventh mode. *)
Definition HVAC_MODE_OFF : string := "off".
Definition HVAC_MODE_AUTO : string := "auto".
Definition HVAC_MODE_HEAT : string := "heat".
Definition HVAC_MODE_DRY : string := "dry".
Definition HVAC_MODE_COOL : string := "cool".
Definition HVAC_MODE_FAN_ONLY : string := "fan_only".
Definition HVAC_MODE_HEAT_COOL : string := "heat_cool".

(** ** The two mode tables *)

Definition HVAC_MODE_LOOKUP : PyDict.dict string string :=
  PyDict.display
    [ (ACMode.AI_name, HVAC_MODE_AUTO);
      (ACMode.HEAT_name, HVAC_MODE_HEAT);
      (ACMode.DRY_name, HVAC_MODE_DRY);
      (ACMode.COOL_name, HVAC_MODE_COOL);
      (ACMode.FAN_name, HVAC_MODE_FAN_ONLY);
      (ACMode.ACO_name, HVAC_MODE_HEAT_COOL) ].

Definition HVAC_MODE_REVERSE_LOOKUP : PyDict.dict string string :=
  PyDict.inverted HVAC_MODE_LOOKUP.


(** Modelled from the spec: the remaining platform constants the file
    imports (temperature bounds used when the device gives none, and the
    feature bits), with the values the platform declares. *)
Definition DEFAULT_MIN_TEMP : Z := 7.
Definition DEFAULT_MAX_TEMP : Z := 35.
Definition SUPPORT_TARGET_TEMPERATURE : Z := 1.
Definition SUPPORT_FAN_MODE : Z := 8.

(** ** Values and the objects behind the adapter *)

(** The Python values that pass through the adapter untouched.  A float
    is carried as a rational: no arithmetic is ever done on it here. *)
Inductive value : Type :=
| VNone
| VBool (b : bool)
| VInt (z : Z)
| VFloat (q : QArith_base.Q)
| VStr (s : string).

(** [v is not None] *)
Definition is_not_None (v : value) : bool :=
  match v with VNone => false | _ => true end.

(** References to the two kinds of device object.  The adapter stores
    references, the objects themselves live in the store and change
    under it. *)
Definition api_ref : Type := nat.
Definition ac_ref : Type := nat.

(** The status object an [LGEDevice] exposes as [state]: the attributes
    the adapter reads. *)
Module DeviceStatus.
Record t : Type := {
  is_on : bool;
  operation_mode : option string;
  current_temp : value;
  target_temp : value;
  fan_speed : value
}.
End DeviceStatus.

(** The wrapper object the adapter keeps in [_api]. *)
Module LGEDevice.
Record t : Type := {
  state : DeviceStatus.t;
  available : bool;
  unique_id : string;
  name : string;
  device_info : value
}.
End LGEDevice.

(** The device object the adapter keeps in [_device]: its readable
    attributes.  Its methods are the [DeviceDriver] below. *)
Module AirConditionerDevice.
Record t : Type := {
  op_modes : list string;
  fan_speeds : list string;
  target_temperature_step : value;
  target_temperature_min : value;
  target_temperature_max : value
}.
End AirConditionerDevice.

(** Everything outside the adapter that it can observe. *)
Record External : Type := {
  api_at : api_ref -> LGEDevice.t;
  ac_at : ac_ref -> AirConditionerDevice.t
}.

(** The four device methods the adapter awaits, and a call: a method
    together with the object it is invoked on. *)
Inductive Method : Type :=
| power (turn_on : bool)
| set_op_mode (mode : string)
| set_target_temp (temp : value)
| set_fan_speed (speed : string).

Record DeviceCall : Type := { target : ac_ref; method : Method }.

(** Exceptions: [ValueError], which this file raises itself and which a
    device method may raise as well, and exceptions of any other class,
    which only device methods raise. *)
Inductive Exn : Type :=
| ValueError (msg : string)
| OtherError (descr : string).

(** The device code is not in this file.  A driver says, for a call and
    the outside world it runs in, whether the call raised, and which
    exception, and what the outside world is after it. *)
Class DeviceDriver : Type :=
  perform : DeviceCall -> External -> option Exn * External.

(** The fields of an [LGEACClimate] instance. *)
Record Fields : Type := {
  _api : api_ref;
  _device : ac_ref;
  _name : string
}.

(** The store: the adapter's own fields, the outside world, and the
    device calls issued so far, oldest first. *)
Record World : Type := {
  self : Fields;
  ext : External;
  log : list DeviceCall
}.

(** ** The monad of adapter code *)

Inductive Result (A : Type) : Type :=
| Ok (a : A)
| Exc (e : Exn).
Arguments Ok {A} a.
Arguments Exc {A} e.

#[global] Instance Exn_eq_dec : EqDecision Exn.
Proof. solve_decision. Defined.

#[global] Instance Result_eq_dec {A : Type} `{EqDecision A} : EqDecision (Result A).
Proof. solve_decision. Defined.

Definition M (A : Type) : Type := World -> Result A * World.

Definition ret {A : Type} (a : A) : M A := fun w => (Ok a, w).

Definition bind {A B : Type} (m : M A) (k : A -> M B) : M B :=
  fun w => match m w with
           | (Ok a, w') => k a w'
           | (Exc e, w') => (Exc e, w')
           end.

Notation "'let!' x ':=' m 'in' k" := (bind m (fun x => k))
  (at level 10, x name, m at level 100, k at level 200).

(** [raise e] *)
Definition raise {A : Type} (e : Exn) : M A := fun w => (Exc e, w).

(** Reading an attribute of [self] *)
Definition getattr_self {A : Type} (field : Fields -> A) : M A :=
  fun w => (Ok (field (self w)), w).

(** Assigning the fields of [self] *)
Definition set_self (f : Fields -> Fields) : M unit :=
  fun w => (Ok tt, {| self := f (self w); ext := ext w; log := log w |}).

(** Reading an attribute of the [LGEDevice] behind a reference *)
Definition getattr_api {A : Type} (r : api_ref) (attr : LGEDevice.t -> A) : M A :=
  fun w => (Ok (attr (api_at (ext w) r)), w).

(** Reading an attribute of the [AirConditionerDevice] behind a reference *)
Definition getattr_ac {A : Type} (r : ac_ref) (attr : AirConditionerDevice.t -> A) : M A :=
  fun w => (Ok (attr (ac_at (ext w) r)), w).

(** [await r.method(...)]: the call is logged, the driver runs it on the
    outside world, and an exception it raises propagates as it is.  The
    device code holds no reference to the adapter, so [self] is out of
    its reach. *)
Definition await `{DeviceDriver} (r : ac_ref) (m : Method) : M unit :=
  fun w =>
    let c := {| target := r; method := m |} in
    let out := perform c (ext w) in
    let w' := {| self := self w; ext := snd out; log := log w ++ [c] |} in
    match fst out with
    | None => (Ok tt, w')
    | Some e => (Exc e, w')
    end.

(** ** class LGEClimate *)

Module LGEClimate.

(** [__init__(self, device)]: the coordinator call of the platform base
    class sets nothing this file reads; then [_api] and [_name] are
    assigned. *)
Definition __init__ (device : api_ref) : M unit :=
  let! _ := set_self (fun o => {| _api := device; _device := _device o; _name := _name o |}) in
  let! n := getattr_api device LGEDevice.name in
  set_self (fun o => {| _api := _api o; _device := _device o; _name := n |}).

Definition device_info : M value :=
  let! a := getattr_self _api in
  getattr_api a LGEDevice.device_info.

Definition available : M bool :=
  let! a := getattr_self _api in
  getattr_api a LGEDevice.available.

End LGEClimate.

(** ** class LGEACClimate(LGEClimate) *)

Module LGEACClimate.

Definition __init__ (device : api_ref) (ac_device : ac_ref) : M unit :=
  let! _ := LGEClimate.__init__ device in
  set_self (fun o => {| _api := _api o; _device := ac_device; _name := _name o |}).

(** Inherited from [LGEClimate]. *)
Definition device_info : M value := LGEClimate.device_info.
Definition available : M bool := LGEClimate.available.

(** [f"{self._api.unique_id}-AC"] *)
Definition unique_id : M string :=
  let! a := getattr_self _api in
  let! u := getattr_api a LGEDevice.unique_id in
  ret (u +:+ "-AC").

Definition name : M string := getattr_self _name.

Definition target_temperature_step : M value :=
  let! d := getattr_self _device in
  getattr_ac d AirConditionerDevice.target_temperature_step.

(** The property's result is a string or Python's [None]; [None] is
    [None] here too. *)
Definition hvac_mode : M (option string) :=
  let! a := getattr_self _api in
  let! mode := getattr_api a (fun o => DeviceStatus.operation_mode (LGEDevice.state o)) in
  let! a' := getattr_self _api in
  let! on := getattr_api a' (fun o => DeviceStatus.is_on (LGEDevice.state o)) in
  match negb on, mode with
  | true, _ => ret (Some HVAC_MODE_OFF)
  | false, None => ret (Some HVAC_MODE_OFF)
  | false, Some mode_name => ret (PyDict.get HVAC_MODE_LOOKUP mode_name)
  end.

Definition async_set_hvac_mode `{DeviceDriver} (hvac_mode : string) : M unit :=
  if decide (hvac_mode = HVAC_MODE_OFF) then
    let! d := getattr_self _device in
    await d (power false)
  else
    match PyDict.get HVAC_MODE_REVERSE_LOOKUP hvac_mode with
    | None => raise (ValueError ("Invalid hvac_mode [" +:+ hvac_mode +:+ "]"))
    | Some operation_mode =>
        let! current := LGEACClimate.hvac_mode in
        let! _ := (if decide (current = Some HVAC_MODE_OFF)
                   then let! d := getattr_self _device in await d (power true)
                   else ret tt) in
        let! d := getattr_self _device in
        await d (set_op_mode operation_mode)
    end.

(** [[HVAC_MODE_OFF] + [HVAC_MODE_LOOKUP.get(mode) for mode in
    self._device.op_modes if mode in HVAC_MODE_LOOKUP]] *)
Definition hvac_modes : M (list (option string)) :=
  let! d := getattr_self _device in
  let! modes := getattr_ac d AirConditionerDevice.op_modes in
  ret ([Some HVAC_MODE_OFF] ++
       map (PyDict.get HVAC_MODE_LOOKUP)
           (List.filter (PyDict.contains HVAC_MODE_LOOKUP) modes)).

Definition current_temperature : M value :=
  let! a := getattr_self _api in
  getattr_api a (fun o => DeviceStatus.current_temp (LGEDevice.state o)).

Definition target_temperature : M value :=
  let! a := getattr_self _api in
  getattr_api a (fun o => DeviceStatus.target_temp (LGEDevice.state o)).

(** [kwargs.get("temperature", self.target_temperature)]: the default
    is an argument, so it is evaluated whether or not the key is there. *)
Definition async_set_temperature `{DeviceDriver} (kwargs : gmap string value) : M unit :=
  let! d := getattr_self _device in
  let! fallback := target_temperature in
  await d (set_target_temp (default fallback (kwargs !! "temperature"))).

Definition fan_mode : M value :=
  let! a := getattr_self _api in
  getattr_api a (fun o => DeviceStatus.fan_speed (LGEDevice.state o)).

Definition async_set_fan_mode `{DeviceDriver} (fan_mode : string) : M unit :=
  let! d := getattr_self _device in
  await d (set_fan_speed fan_mode).

Definition fan_modes : M (list string) :=
  let! d := getattr_self _device in
  getattr_ac d AirConditionerDevice.fan_speeds.

Definition supported_features : M Z :=
  ret (Z.lor SUPPORT_FAN_MODE SUPPORT_TARGET_TEMPERATURE).

Definition async_turn_on `{DeviceDriver} : M unit :=
  let! d := getattr_self _device in
  await d (power true).

Definition async_turn_off `{DeviceDriver} : M unit :=
  let! d := getattr_self _device in
  await d (power false).

Definition min_temp : M value :=
  let! d := getattr_self _device in
  let! min_value := getattr_ac d AirConditionerDevice.target_temperature_min in
  if is_not_None min_value then ret min_value
  else ret (VInt DEFAULT_MIN_TEMP).

Definition max_temp : M value :=
  let! d := getattr_self _device in
  let! max_value := getattr_ac d AirConditionerDevice.target_temperature_max in
  if is_not_None max_value then ret max_value
  else ret (VInt DEFAULT_MAX_TEMP).

End LGEACClimate.

(** ** Sample objects *)

(** A living-room unit, switched on and cooling. *)
Definition demo_status : DeviceStatus.t :=
  {| DeviceStatus.is_on := true;
     DeviceStatus.operation_mode := Some "COOL";
     DeviceStatus.current_temp := VFloat (QArith_base.Qmake 49 2);
     DeviceStatus.target_temp := VInt 22;
     DeviceStatus.fan_speed := VStr "HIGH" |}.

(** The same unit switched off; the vendor still reports its last mode. *)
Definition off_status : DeviceStatus.t :=
  {| DeviceStatus.is_on := false;
     DeviceStatus.operation_mode := Some "COOL";
     DeviceStatus.current_temp := VFloat (QArith_base.Qmake 53 2);
     DeviceStatus.target_temp := VInt 22;
     DeviceStatus.fan_speed := VStr "LOW" |}.

(** The unit running a vendor mode the tables do not list. *)
Definition saving_status : DeviceStatus.t :=
  {| DeviceStatus.is_on := true;
     DeviceStatus.operation_mode := Some "ENERGY_SAVING";
     DeviceStatus.current_temp := VFloat (QArith_base.Qmake 25 1);
     DeviceStatus.target_temp := VInt 24;
     DeviceStatus.fan_speed := VStr "MID" |}.

Definition demo_api_in (s : DeviceStatus.t) : LGEDevice.t :=
  {| LGEDevice.state := s;
     LGEDevice.available := true;
     LGEDevice.unique_id := "a1b2";
     LGEDevice.name := "Living room";
     LGEDevice.device_info := VNone |}.

Definition demo_ac : AirConditionerDevice.t :=
  {| AirConditionerDevice.op_modes := ["COOL"; "DRY"; "FAN"; "AI"; "ENERGY_SAVING"];
     AirConditionerDevice.fan_speeds := ["LOW"; "MID"; "HIGH"];
     AirConditionerDevice.target_temperature_step := VInt 1;
     AirConditionerDevice.target_temperature_min := VInt 18;
     AirConditionerDevice.target_temperature_max := VNone |}.

Definition demo_world_in (s : DeviceStatus.t) : World :=
  {| self := {| _api := 0; _device := 0; _name := "Living room" |};
     ext := {| api_at := fun _ => demo_api_in s; ac_at := fun _ => demo_ac |};
     log := [] |}.

Definition demo_world : World := demo_world_in demo_status.

(** What a call changes in a status object when the device obeys. *)
Definition obey (m : Method) (s : DeviceStatus.t) : DeviceStatus.t :=
  match m with
  | power b =>
      {| DeviceStatus.is_on := b;
         DeviceStatus.operation_mode := DeviceStatus.operation_mode s;
         DeviceStatus.current_temp := DeviceStatus.current_temp s;
         DeviceStatus.target_temp := DeviceStatus.target_temp s;
         DeviceStatus.fan_speed := DeviceStatus.fan_speed s |}
  | set_op_mode n =>
      {| DeviceStatus.is_on := DeviceStatus.is_on s;
         DeviceStatus.operation_mode := Some n;
         DeviceStatus.current_temp := DeviceStatus.current_temp s;
         DeviceStatus.target_temp := DeviceStatus.target_temp s;
         DeviceStatus.fan_speed := DeviceStatus.fan_speed s |}
  | set_target_temp t =>
      {| DeviceStatus.is_on := DeviceStatus.is_on s;
         DeviceStatus.operation_mode := DeviceStatus.operation_mode s;
         DeviceStatus.current_temp := DeviceStatus.current_temp s;
         DeviceStatus.target_temp := t;
         DeviceStatus.fan_speed := DeviceStatus.fan_speed s |}
  | set_fan_speed f =>
      {| DeviceStatus.is_on := DeviceStatus.is_on s;
         DeviceStatus.operation_mode := DeviceStatus.operation_mode s;
         DeviceStatus.current_temp := DeviceStatus.current_temp s;
         DeviceStatus.target_temp := DeviceStatus.target_temp s;
         DeviceStatus.fan_speed := VStr f |}
  end.

(** A driver whose device obeys every call at once and never raises:
    the wrapper with the same number as the called device shows the new
    status. *)
Definition obedient_driver : DeviceDriver :=
  fun c e =>
    (None,
     {| api_at := fun r =>
          if decide (r = target c) then
            {| LGEDevice.state := obey (method c) (LGEDevice.state (api_at e r));
               LGEDevice.available := LGEDevice.available (api_at e r);
               LGEDevice.unique_id := LGEDevice.unique_id (api_at e r);
               LGEDevice.name := LGEDevice.name (api_at e r);
               LGEDevice.device_info := LGEDevice.device_info (api_at e r) |}
          else api_at e r;
        ac_at := ac_at e |}).


(** A driver whose device refuses every call with a [ValueError] of its
    own and changes nothing. *)
Definition refusing_driver : DeviceDriver :=
  fun _ e => (Some (ValueError "refused by the device"), e).

(** ** Predicates used in the statements *)

(** A computation that leaves the whole store as it found it. *)
Definition read_only {A : Type} (m : M A) : Prop :=
  forall w, snd (m w) = w.

(** A computation that leaves the three fields of the adapter as it
    found them. *)
Definition keeps_fields {A : Type} (m : M A) : Prop :=
  forall w,
    _api (self (snd (m w))) = _api (self w) /\
    _device (self (snd (m w))) = _device (self w) /\
    _name (self (snd (m w))) = _name (self w).

(** The status the adapter sees in [w]: [self._api.state]. *)
Definition seen_state (w : World) : DeviceStatus.t :=
  LGEDevice.state (api_at (ext w) (_api (self w))).

(** The device object the adapter sees in [w]: [self._device]. *)
Definition seen_device (w : World) : AirConditionerDevice.t :=
  ac_at (ext w) (_device (self w)).

(** The call [self._device.m(...)] as issued from [w]. *)
Definition on_device (w : World) (m : Method) : DeviceCall :=
  {| target := _device (self w); method := m |}.

(** A computation that keeps the adapter's fields and whose device
    calls, appended to the log, all go to the object in [_device]. *)
Definition device_only {A : Type} (m : M A) : Prop :=
  forall w,
    self (snd (m w)) = self w /\
    exists calls,
      log (snd (m w)) = log w ++ calls /\
      Forall (fun c => target c = _device (self w)) calls.

(** The exception [e] is one the driver raised on one of [calls]. *)
Definition raised_by_device `{DeviceDriver} (calls : list DeviceCall) (e : Exn) : Prop :=
  exists c e0, c ∈ calls /\ fst (perform c e0) = Some e.

(** ** Platform setup: async_setup_entry *)

(** What a run of [async_setup_entry] comes to: the [KeyError] of
    [hass.data[DOMAIN]], or a normal return together with the argument
    of every call it made to [async_add_entities]. *)
Inductive SetupResult : Type :=
| KeyError (key : string)
| Returned (added : list (list Fields)).

(** An object before its [__init__] has run; no field is read before it
    is assigned. *)
Definition blank : Fields := {| _api := 0; _device := 0; _name := "" |}.

(** [LGEACClimate(device, ac_device)]: a new object, initialised in the
    outside world [e]. *)
Definition construct (e : External) (device : api_ref) (ac_device : ac_ref) : Fields :=
  self (snd (LGEACClimate.__init__ device ac_device
               {| self := blank; ext := e; log := [] |})).

Section Setup.
(** The device type enumeration and the two keys are declared in other
    files of the integration; they are taken as they come. *)
Context {DeviceType : Type} `{EqDecision DeviceType}.
Variables (DOMAIN LGE_DEVICES : string) (AC : DeviceType).

(** [hass_data] is [hass.data], read at [DOMAIN] and then at
    [LGE_DEVICES] only; [device_attr] gives the [device] attribute of a
    wrapper.  An absent or empty device dictionary is falsy. *)
Definition async_setup_entry
    (hass_data : PyDict.dict string
                   (PyDict.dict string (PyDict.dict DeviceType (list api_ref))))
    (device_attr : api_ref -> ac_ref) (e : External) : SetupResult :=
  match PyDict.get hass_data DOMAIN with
  | None => KeyError DOMAIN
  | Some entry_config =>
      match PyDict.get entry_config LGE_DEVICES with
      | None => Returned []
      | Some [] => Returned []
      | Some lge_devices =>
          let lge_climates :=
            [] ++ map (fun lge_device =>
                         construct e lge_device (device_attr lge_device))
                      (default [] (PyDict.get lge_devices AC)) in
          Returned [lge_climates]
      end
  end.

End Setup.

(** A sample [hass.data]: one washer and two air conditioners, under the
    vendor's numeric device types. *)
Definition demo_hass_data :
    PyDict.dict string (PyDict.dict string (PyDict.dict Z (list api_ref))) :=
  [ ("smartthinq_sensors",
     [ ("lge_devices", [ (201%Z, [5]); (401%Z, [0; 1]) ]) ]) ].

(** * Properties *)

(** ** Dictionaries *)

Section DictFacts.
Context {K V : Type} `{EqDecision K}.
Implicit Types (d : PyDict.dict K V) (k : K) (v : V).

Lemma get_setitem d k v k' :
  PyDict.get (PyDict.setitem d k v) k' =
  if decide (k' = k) then Some v else PyDict.get d k'.
Proof.
  induction d as [|[k0 v0] d IH]; simpl.
  - reflexivity.
  - destruct (decide (k = k0)) as [->|Hne]; simpl.
    + destruct (decide (k' = k0)); reflexivity.
    + rewrite IH. destruct (decide (k' = k0)) as [->|]; [|reflexivity].
      destruct (decide (k0 = k)); congruence.
Qed.

Lemma get_Some_elem_of d k v :
  PyDict.get d k = Some v -> (k, v) ∈ d.
Proof.
  induction d as [|[k0 v0] d IH]; simpl; [discriminate|].
  destruct (decide (k = k0)) as [->|].
  - intros [= ->]. left.
  - intros Hg. right. auto.
Qed.

Lemma elem_of_get_Some d k v :
  NoDup (map fst d) -> (k, v) ∈ d -> PyDict.get d k = Some v.
Proof.
  induction d as [|[k0 v0] d IH]; simpl; intros Hnd Hin.
  - inversion Hin.
  - apply NoDup_cons in Hnd as [Hfresh Hnd].
    apply elem_of_cons in Hin as [[= -> ->]|Hin].
    + destruct (decide (k0 = k0)); congruence.
    + destruct (decide (k = k0)) as [->|]; [|auto].
      exfalso. apply Hfresh.
      change k0 with (fst (k0, v)). apply list_elem_of_fmap_2. exact Hin.
Qed.

Lemma get_None_not_key d k :
  PyDict.get d k = None <-> k ∉ map fst d.
Proof.
  induction d as [|[k0 v0] d IH]; simpl.
  - split; [intros _ Hin; inversion Hin | reflexivity].
  - rewrite not_elem_of_cons. destruct (decide (k = k0)) as [->|Hne].
    + split; [discriminate | intros [Hk _]; congruence].
    + rewrite IH. tauto.
Qed.

End DictFacts.

Section Inversion.
Context {K V : Type} `{EqDecision K} `{EqDecision V}.
Implicit Types (d : PyDict.dict K V) (k : K) (v : V).

(** The comprehension handles the items one after the other. *)
Lemma inverted_snoc d k v :
  PyDict.inverted (d ++ [(k, v)]) = PyDict.setitem (PyDict.inverted d) v k.
Proof.
  unfold PyDict.inverted, PyDict.items. rewrite fold_left_app. reflexivity.
Qed.

(** The last item with a given value wins; with no value repeated, the
    comprehension holds exactly the swapped items. *)
Lemma get_inverted d v k :
  NoDup (map snd d) ->
  PyDict.get (PyDict.inverted d) v = Some k <-> (k, v) ∈ d.
Proof.
  induction d as [|[k0 v0] d IH] using rev_ind; intros Hnd.
  - simpl. split; [discriminate | intros Hin; inversion Hin].
  - rewrite map_app in Hnd. simpl in Hnd.
    apply NoDup_app in Hnd as (Hnd & Hfresh & _).
    rewrite inverted_snoc, get_setitem, elem_of_app, list_elem_of_singleton.
    destruct (decide (v = v0)) as [->|Hne].
    + split.
      * intros [= ->]. right. reflexivity.
      * intros [Hin|[= ->]]; [|reflexivity].
        exfalso. apply (Hfresh v0); [|left].
        change v0 with (snd (k, v0)). apply list_elem_of_fmap_2. exact Hin.
    + rewrite (IH Hnd). split; [tauto|].
      intros [Hin|[= _ Heq]]; [exact Hin | congruence].
Qed.

(** A dictionary with no repeated value and its comprehension undo each
    other. *)
Lemma inverted_inverse d k v :
  NoDup (map fst d) -> NoDup (map snd d) ->
  PyDict.get (PyDict.inverted d) v = Some k <-> PyDict.get d k = Some v.
Proof.
  intros Hk Hv. rewrite (get_inverted d v k Hv). split.
  - apply elem_of_get_Some, Hk.
  - apply get_Some_elem_of.
Qed.

End Inversion.

(** ** The mode tables *)

Lemma lookup_keys_NoDup : NoDup (map fst HVAC_MODE_LOOKUP).
Proof. apply (bool_decide_unpack _). vm_compute. reflexivity. Qed.

Lemma lookup_values_NoDup : NoDup (map snd HVAC_MODE_LOOKUP).
Proof. apply (bool_decide_unpack _). vm_compute. reflexivity. Qed.

Lemma reverse_get m n :
  PyDict.get HVAC_MODE_REVERSE_LOOKUP m = Some n <->
  PyDict.get HVAC_MODE_LOOKUP n = Some m.
Proof.
  apply inverted_inverse; [apply lookup_keys_NoDup | apply lookup_values_NoDup].
Qed.

Example lookup_ai : PyDict.get HVAC_MODE_LOOKUP "AI" = Some "auto".
Proof. reflexivity. Qed.

Example reverse_fan : PyDict.get HVAC_MODE_REVERSE_LOOKUP "fan_only" = Some "FAN".
Proof. reflexivity. Qed.

Example reverse_off : PyDict.get HVAC_MODE_REVERSE_LOOKUP HVAC_MODE_OFF = None.
Proof. reflexivity. Qed.

Example demo_hvac_modes :
  fst (LGEACClimate.hvac_modes demo_world) =
  Ok [Some "off"; Some "cool"; Some "dry"; Some "fan_only"; Some "auto"].
Proof. reflexivity. Qed.

Example demo_unique_id : fst (LGEACClimate.unique_id demo_world) = Ok "a1b2-AC".
Proof. reflexivity. Qed.

Example demo_supported_features :
  fst (LGEACClimate.supported_features demo_world) = Ok 9%Z.
Proof. reflexivity. Qed.

(** C1: HVAC_MODE_REVERSE_LOOKUP is the exact inverse of
    HVAC_MODE_LOOKUP.  Every vendor name [k] of the forward table is sent
    back to [k] by the reverse table, every platform mode [v] of the
    reverse table is sent back to [v] by the forward table, and the
    forward table is injective. *)
Theorem reverse_lookup_exact_inverse :
  (forall k v, PyDict.get HVAC_MODE_LOOKUP k = Some v ->
               PyDict.get HVAC_MODE_REVERSE_LOOKUP v = Some k) /\
  (forall v k, PyDict.get HVAC_MODE_REVERSE_LOOKUP v = Some k ->
               PyDict.get HVAC_MODE_LOOKUP k = Some v) /\
  (forall k1 k2 v, PyDict.get HVAC_MODE_LOOKUP k1 = Some v ->
                   PyDict.get HVAC_MODE_LOOKUP k2 = Some v -> k1 = k2).
Proof.
  split; [|split].
  - intros k v Hk. apply reverse_get, Hk.
  - intros v k Hv. apply reverse_get, Hv.
  - intros k1 k2 v H1 H2.
    apply reverse_get in H1. apply reverse_get in H2. congruence.
Qed.

Lemma reverse_lookup_exact_inverse_witness :
  PyDict.get HVAC_MODE_REVERSE_LOOKUP HVAC_MODE_HEAT_COOL = Some "ACO" /\
  PyDict.get HVAC_MODE_LOOKUP "ACO" = Some HVAC_MODE_HEAT_COOL.
Proof.
  split.
  - apply (proj1 reverse_lookup_exact_inverse "ACO" HVAC_MODE_HEAT_COOL).
    reflexivity.
  - apply (proj1 (proj2 reverse_lookup_exact_inverse) HVAC_MODE_HEAT_COOL "ACO").
    reflexivity.
Defined.

(** C2: the forward table HVAC_MODE_LOOKUP has exactly six entries: the
    vendor names AI, HEAT, DRY, COOL, FAN and ACO, sent to the platform
    constants auto, heat, dry, cool, fan-only and heat-cool in this
    order, and a lookup succeeds on nothing else. *)
Theorem lookup_six_entries :
  PyDict.items HVAC_MODE_LOOKUP =
    [ ("AI", HVAC_MODE_AUTO); ("HEAT", HVAC_MODE_HEAT); ("DRY", HVAC_MODE_DRY);
      ("COOL", HVAC_MODE_COOL); ("FAN", HVAC_MODE_FAN_ONLY);
      ("ACO", HVAC_MODE_HEAT_COOL) ] /\
  length (PyDict.items HVAC_MODE_LOOKUP) = 6 /\
  (forall k v,
      PyDict.get HVAC_MODE_LOOKUP k = Some v <->
      (k = "AI" /\ v = HVAC_MODE_AUTO) \/ (k = "HEAT" /\ v = HVAC_MODE_HEAT) \/
      (k = "DRY" /\ v = HVAC_MODE_DRY) \/ (k = "COOL" /\ v = HVAC_MODE_COOL) \/
      (k = "FAN" /\ v = HVAC_MODE_FAN_ONLY) \/ (k = "ACO" /\ v = HVAC_MODE_HEAT_COOL)).
Proof.
  assert (Hitems : PyDict.items HVAC_MODE_LOOKUP =
    [ ("AI", HVAC_MODE_AUTO); ("HEAT", HVAC_MODE_HEAT); ("DRY", HVAC_MODE_DRY);
      ("COOL", HVAC_MODE_COOL); ("FAN", HVAC_MODE_FAN_ONLY);
      ("ACO", HVAC_MODE_HEAT_COOL) ]) by (vm_compute; reflexivity).
  split; [exact Hitems|]. split; [rewrite Hitems; reflexivity|].
  intros k v. split.
  - intros Hg. apply get_Some_elem_of in Hg.
    unfold PyDict.items in Hitems. rewrite Hitems in Hg.
    repeat (apply elem_of_cons in Hg as [[= -> ->]|Hg]; [tauto|]).
    inversion Hg.
  - intros Hcase.
    repeat (destruct Hcase as [[-> ->]|Hcase]; [reflexivity|]).
    destruct Hcase as [-> ->]. reflexivity.
Qed.

Lemma lookup_six_entries_witness :
  ("FAN" = "FAN" /\ HVAC_MODE_FAN_ONLY = HVAC_MODE_FAN_ONLY) /\
  PyDict.get HVAC_MODE_LOOKUP "FAN" = Some HVAC_MODE_FAN_ONLY.
Proof.
  split; [split; reflexivity|].
  apply (proj2 (proj2 lookup_six_entries) "FAN" HVAC_MODE_FAN_ONLY).
  do 4 right. left. split; reflexivity.
Defined.

(** The platform modes the reverse table knows are the six values of the
    forward table. *)
Lemma reverse_get_None m :
  PyDict.get HVAC_MODE_REVERSE_LOOKUP m = None <->
  m ∉ [ HVAC_MODE_AUTO; HVAC_MODE_HEAT; HVAC_MODE_DRY; HVAC_MODE_COOL;
        HVAC_MODE_FAN_ONLY; HVAC_MODE_HEAT_COOL ].
Proof.
  rewrite get_None_not_key.
  replace (map fst HVAC_MODE_REVERSE_LOOKUP)
    with [ HVAC_MODE_AUTO; HVAC_MODE_HEAT; HVAC_MODE_DRY; HVAC_MODE_COOL;
           HVAC_MODE_FAN_ONLY; HVAC_MODE_HEAT_COOL ] by (vm_compute; reflexivity).
  reflexivity.
Qed.

(** ** Reading code leaves the store alone *)

Create HintDb frame.

Lemma read_only_ret {A : Type} (a : A) : read_only (ret a).
Proof. intros w. reflexivity. Qed.

Lemma read_only_bind {A B : Type} (m : M A) (k : A -> M B) :
  read_only m -> (forall a, read_only (k a)) -> read_only (bind m k).
Proof.
  intros Hm Hk w. unfold bind. specialize (Hm w).
  destruct (m w) as [[a|e] w']; simpl in Hm; subst w'.
  - apply Hk.
  - reflexivity.
Qed.

Lemma read_only_getattr_self {A : Type} (f : Fields -> A) :
  read_only (getattr_self f).
Proof. intros w. reflexivity. Qed.

Lemma read_only_getattr_api {A : Type} r (f : LGEDevice.t -> A) :
  read_only (getattr_api r f).
Proof. intros w. reflexivity. Qed.

Lemma read_only_getattr_ac {A : Type} r (f : AirConditionerDevice.t -> A) :
  read_only (getattr_ac r f).
Proof. intros w. reflexivity. Qed.

Lemma read_only_if {A : Type} (b : bool) (m1 m2 : M A) :
  read_only m1 -> read_only m2 -> read_only (if b then m1 else m2).
Proof. destruct b; auto. Qed.

#[local] Hint Resolve read_only_ret read_only_getattr_self
  read_only_getattr_api read_only_getattr_ac : frame.

(** Walks a reader along its binds and branches. *)
Ltac frame :=
  repeat first
    [ solve [auto with frame]
    | apply read_only_bind; [|intro]
    | apply read_only_if
    | match goal with
      | |- read_only (match ?x with _ => _ end) => destruct x
      end ].

Lemma hvac_mode_read_only : read_only LGEACClimate.hvac_mode.
Proof. unfold LGEACClimate.hvac_mode. frame. Qed.

Lemma hvac_modes_read_only : read_only LGEACClimate.hvac_modes.
Proof. unfold LGEACClimate.hvac_modes. frame. Qed.

Lemma current_temperature_read_only : read_only LGEACClimate.current_temperature.
Proof. unfold LGEACClimate.current_temperature. frame. Qed.

Lemma target_temperature_read_only : read_only LGEACClimate.target_temperature.
Proof. unfold LGEACClimate.target_temperature. frame. Qed.

Lemma fan_mode_read_only : read_only LGEACClimate.fan_mode.
Proof. unfold LGEACClimate.fan_mode. frame. Qed.

Lemma fan_modes_read_only : read_only LGEACClimate.fan_modes.
Proof. unfold LGEACClimate.fan_modes. frame. Qed.

Lemma min_temp_read_only : read_only LGEACClimate.min_temp.
Proof. unfold LGEACClimate.min_temp. frame. Qed.

Lemma max_temp_read_only : read_only LGEACClimate.max_temp.
Proof. unfold LGEACClimate.max_temp. frame. Qed.

Lemma available_read_only : read_only LGEACClimate.available.
Proof.
  unfold LGEACClimate.available, LGEClimate.available. frame.
Qed.

Lemma unique_id_read_only : read_only LGEACClimate.unique_id.
Proof. unfold LGEACClimate.unique_id. frame. Qed.

Lemma name_read_only : read_only LGEACClimate.name.
Proof. unfold LGEACClimate.name. frame. Qed.

#[local] Hint Resolve hvac_mode_read_only hvac_modes_read_only
  current_temperature_read_only target_temperature_read_only
  fan_mode_read_only fan_modes_read_only min_temp_read_only
  max_temp_read_only available_read_only unique_id_read_only
  name_read_only : frame.

Lemma read_only_keeps_fields {A : Type} (m : M A) :
  read_only m -> keeps_fields m.
Proof. intros Hm w. rewrite (Hm w). auto. Qed.

(** ** The readers *)

(** What a reader returns can be read off the store it ran in. *)
Lemma reader_run {A : Type} (m : M A) w :
  read_only m -> m w = (fst (m w), w).
Proof.
  intros Hm. specialize (Hm w). destruct (m w) as [r w']. simpl in *.
  congruence.
Qed.

Lemma hvac_mode_run w :
  LGEACClimate.hvac_mode w =
  (Ok (if DeviceStatus.is_on (seen_state w) then
         match DeviceStatus.operation_mode (seen_state w) with
         | None => Some HVAC_MODE_OFF
         | Some n => PyDict.get HVAC_MODE_LOOKUP n
         end
       else Some HVAC_MODE_OFF), w).
Proof.
  unfold LGEACClimate.hvac_mode, bind, getattr_self, getattr_api, seen_state.
  destruct (DeviceStatus.is_on _), (DeviceStatus.operation_mode _); reflexivity.
Qed.

(** C4: hvac_mode returns HVAC_MODE_OFF whenever the device state
    reports is_on false or operation_mode None; when the device is on and
    operation_mode is a name outside the six-entry table, it returns
    None (the default of the dictionary's get), which is not
    HVAC_MODE_OFF. *)
Theorem hvac_mode_off_and_unknown (w : World) :
  (DeviceStatus.is_on (seen_state w) = false \/
   DeviceStatus.operation_mode (seen_state w) = None ->
   LGEACClimate.hvac_mode w = (Ok (Some HVAC_MODE_OFF), w)) /\
  (forall n,
     DeviceStatus.is_on (seen_state w) = true ->
     DeviceStatus.operation_mode (seen_state w) = Some n ->
     n ∉ map fst (PyDict.items HVAC_MODE_LOOKUP) ->
     LGEACClimate.hvac_mode w = (Ok None, w) /\
     fst (LGEACClimate.hvac_mode w) <> Ok (Some HVAC_MODE_OFF)).
Proof.
  split.
  - intros Hoff. rewrite hvac_mode_run.
    destruct Hoff as [-> | ->]; [reflexivity|].
    destruct (DeviceStatus.is_on _); reflexivity.
  - intros n Hon Hmode Hout. rewrite hvac_mode_run, Hon, Hmode.
    apply get_None_not_key in Hout. unfold PyDict.items in Hout. rewrite Hout.
    split; [reflexivity | discriminate].
Qed.

Lemma hvac_mode_off_and_unknown_witness :
  LGEACClimate.hvac_mode (demo_world_in off_status) =
    (Ok (Some HVAC_MODE_OFF), demo_world_in off_status) /\
  LGEACClimate.hvac_mode (demo_world_in saving_status) =
    (Ok None, demo_world_in saving_status).
Proof.
  split.
  - apply (proj1 (hvac_mode_off_and_unknown (demo_world_in off_status))).
    left. reflexivity.
  - apply (proj2 (hvac_mode_off_and_unknown (demo_world_in saving_status))
             "ENERGY_SAVING"); [reflexivity | reflexivity |].
    apply (bool_decide_unpack _). vm_compute. reflexivity.
Defined.

Lemma await_self `{DeviceDriver} d m w : self (snd (await d m w)) = self w.
Proof. unfold await. destruct (fst (perform _ _)); reflexivity. Qed.

Lemma await_log `{DeviceDriver} d m w :
  log (snd (await d m w)) = log w ++ [{| target := d; method := m |}].
Proof. unfold await. destruct (fst (perform _ _)); reflexivity. Qed.

Lemma await_result `{DeviceDriver} d m w :
  fst (await d m w) =
  match fst (perform {| target := d; method := m |} (ext w)) with
  | None => Ok tt
  | Some e => Exc e
  end.
Proof. unfold await. destruct (fst (perform _ _)); reflexivity. Qed.

Lemma readers_run w :
  LGEACClimate.current_temperature w =
    (Ok (DeviceStatus.current_temp (seen_state w)), w) /\
  LGEACClimate.target_temperature w =
    (Ok (DeviceStatus.target_temp (seen_state w)), w) /\
  LGEACClimate.fan_mode w =
    (Ok (DeviceStatus.fan_speed (seen_state w)), w).
Proof. repeat split. Qed.

(** C6: the temperature and fan readers are read-through projections of
    the device's current state, with no local caching.  In every store,
    current_temperature is the state's current_temp, target_temperature
    its target_temp and fan_mode its fan_speed; two reads that observe
    different states return the different values; and a read made after
    a device call sees the state the call left, not an earlier read. *)
Theorem readers_read_through :
  (forall w,
     LGEACClimate.current_temperature w =
       (Ok (DeviceStatus.current_temp (seen_state w)), w) /\
     LGEACClimate.target_temperature w =
       (Ok (DeviceStatus.target_temp (seen_state w)), w) /\
     LGEACClimate.fan_mode w =
       (Ok (DeviceStatus.fan_speed (seen_state w)), w)) /\
  (forall w1 w2,
     (DeviceStatus.current_temp (seen_state w1) <> DeviceStatus.current_temp (seen_state w2) ->
      fst (LGEACClimate.current_temperature w1) <> fst (LGEACClimate.current_temperature w2)) /\
     (DeviceStatus.target_temp (seen_state w1) <> DeviceStatus.target_temp (seen_state w2) ->
      fst (LGEACClimate.target_temperature w1) <> fst (LGEACClimate.target_temperature w2)) /\
     (DeviceStatus.fan_speed (seen_state w1) <> DeviceStatus.fan_speed (seen_state w2) ->
      fst (LGEACClimate.fan_mode w1) <> fst (LGEACClimate.fan_mode w2))) /\
  (forall (D : DeviceDriver) d m w,
     let after := snd (await d m (snd (LGEACClimate.current_temperature w))) in
     fst (LGEACClimate.current_temperature after) =
       Ok (DeviceStatus.current_temp (seen_state (snd (await d m w))))).
Proof.
  pose proof readers_run as Hrun.
  split; [exact Hrun|]. split.
  - intros w1 w2.
    destruct (Hrun w1) as (Hc1 & Ht1 & Hf1), (Hrun w2) as (Hc2 & Ht2 & Hf2).
    rewrite Hc1, Hc2, Ht1, Ht2, Hf1, Hf2. simpl.
    repeat split; intros Hne Heq; apply Hne; congruence.
  - intros D d m w after. subst after.
    rewrite (current_temperature_read_only w).
    destruct (Hrun (snd (await d m w))) as (-> & _). reflexivity.
Qed.

Lemma readers_read_through_witness :
  fst (LGEACClimate.current_temperature (demo_world_in demo_status)) <>
  fst (LGEACClimate.current_temperature (demo_world_in off_status)).
Proof.
  apply (proj1 (proj1 (proj2 readers_read_through)
                  (demo_world_in demo_status) (demo_world_in off_status))).
  simpl. discriminate.
Defined.

(** C9: min_temp returns the device's target_temperature_min when that
    is not None and DEFAULT_MIN_TEMP otherwise; max_temp returns the
    device's target_temperature_max when that is not None and
    DEFAULT_MAX_TEMP otherwise. *)
Theorem min_max_temp_defaults (w : World) :
  (AirConditionerDevice.target_temperature_min (seen_device w) <> VNone ->
   LGEACClimate.min_temp w =
     (Ok (AirConditionerDevice.target_temperature_min (seen_device w)), w)) /\
  (AirConditionerDevice.target_temperature_min (seen_device w) = VNone ->
   LGEACClimate.min_temp w = (Ok (VInt DEFAULT_MIN_TEMP), w)) /\
  (AirConditionerDevice.target_temperature_max (seen_device w) <> VNone ->
   LGEACClimate.max_temp w =
     (Ok (AirConditionerDevice.target_temperature_max (seen_device w)), w)) /\
  (AirConditionerDevice.target_temperature_max (seen_device w) = VNone ->
   LGEACClimate.max_temp w = (Ok (VInt DEFAULT_MAX_TEMP), w)).
Proof.
  unfold LGEACClimate.min_temp, LGEACClimate.max_temp, seen_device,
    bind, getattr_self, getattr_ac.
  destruct (AirConditionerDevice.target_temperature_min _) eqn:Hmin,
           (AirConditionerDevice.target_temperature_max _) eqn:Hmax;
    simpl; repeat split; intros Hcase; congruence.
Qed.

Lemma min_max_temp_defaults_witness :
  LGEACClimate.min_temp demo_world = (Ok (VInt 18), demo_world) /\
  LGEACClimate.max_temp demo_world = (Ok (VInt 35), demo_world).
Proof.
  split.
  - apply (proj1 (min_max_temp_defaults demo_world)). simpl. discriminate.
  - apply (proj2 (proj2 (proj2 (min_max_temp_defaults demo_world)))).
    reflexivity.
Defined.

(** Construction assigns the three fields. *)
Lemma init_fields device ac_device w :
  self (snd (LGEACClimate.__init__ device ac_device w)) =
  {| _api := device; _device := ac_device;
     _name := LGEDevice.name (api_at (ext w) device) |}.
Proof. reflexivity. Qed.

(** C10: the adapter keeps no mutable local state.  Every property read
    (hvac_mode, hvac_modes, current_temperature, target_temperature,
    fan_mode, fan_modes, min_temp, max_temp, available, unique_id, name)
    leaves the fields _api, _device and _name as they were, in
    particular as the constructor set them. *)
Theorem property_reads_keep_fields :
  (keeps_fields LGEACClimate.hvac_mode /\
   keeps_fields LGEACClimate.hvac_modes /\
   keeps_fields LGEACClimate.current_temperature /\
   keeps_fields LGEACClimate.target_temperature /\
   keeps_fields LGEACClimate.fan_mode /\
   keeps_fields LGEACClimate.fan_modes /\
   keeps_fields LGEACClimate.min_temp /\
   keeps_fields LGEACClimate.max_temp /\
   keeps_fields LGEACClimate.available /\
   keeps_fields LGEACClimate.unique_id /\
   keeps_fields LGEACClimate.name) /\
  (forall device ac_device w,
     let built := snd (LGEACClimate.__init__ device ac_device w) in
     self (snd (LGEACClimate.hvac_mode (snd (LGEACClimate.min_temp built)))) =
     {| _api := device; _device := ac_device;
        _name := LGEDevice.name (api_at (ext w) device) |}).
Proof.
  split.
  - repeat apply conj; apply read_only_keeps_fields; auto with frame.
  - intros device ac_device w built.
    rewrite (hvac_mode_read_only _), (min_temp_read_only _).
    apply init_fields.
Qed.

Lemma property_reads_keep_fields_witness :
  self (snd (LGEACClimate.hvac_mode
               (snd (LGEACClimate.min_temp
                       (snd (LGEACClimate.__init__ 3 4 demo_world)))))) =
  {| _api := 3; _device := 4; _name := "Living room" |}.
Proof.
  apply (proj2 property_reads_keep_fields 3 4 demo_world).
Defined.

(** ** Setting the mode *)

Section SetMode.
Context `{DeviceDriver}.

(** The four ways through [async_set_hvac_mode]. *)
Lemma set_hvac_mode_off w :
  LGEACClimate.async_set_hvac_mode HVAC_MODE_OFF w =
  await (_device (self w)) (power false) w.
Proof. reflexivity. Qed.

Lemma set_hvac_mode_invalid m w :
  m <> HVAC_MODE_OFF ->
  PyDict.get HVAC_MODE_REVERSE_LOOKUP m = None ->
  LGEACClimate.async_set_hvac_mode m w =
  (Exc (ValueError ("Invalid hvac_mode [" +:+ m +:+ "]")), w).
Proof.
  intros Hoff Hget. unfold LGEACClimate.async_set_hvac_mode.
  destruct (decide (m = HVAC_MODE_OFF)); [contradiction|].
  rewrite Hget. reflexivity.
Qed.

Lemma set_hvac_mode_from_off m n w :
  m <> HVAC_MODE_OFF ->
  PyDict.get HVAC_MODE_REVERSE_LOOKUP m = Some n ->
  fst (LGEACClimate.hvac_mode w) = Ok (Some HVAC_MODE_OFF) ->
  LGEACClimate.async_set_hvac_mode m w =
  (let! _ := await (_device (self w)) (power true) in
   fun w' => await (_device (self w')) (set_op_mode n) w') w.
Proof.
  intros Hoff Hget Hcur. unfold LGEACClimate.async_set_hvac_mode.
  destruct (decide (m = HVAC_MODE_OFF)); [contradiction|].
  rewrite Hget. unfold bind at 1.
  rewrite (reader_run _ w hvac_mode_read_only), Hcur.
  destruct (decide (Some HVAC_MODE_OFF = Some HVAC_MODE_OFF)); [|congruence].
  reflexivity.
Qed.

Lemma set_hvac_mode_running m n w :
  m <> HVAC_MODE_OFF ->
  PyDict.get HVAC_MODE_REVERSE_LOOKUP m = Some n ->
  fst (LGEACClimate.hvac_mode w) <> Ok (Some HVAC_MODE_OFF) ->
  LGEACClimate.async_set_hvac_mode m w =
  await (_device (self w)) (set_op_mode n) w.
Proof.
  intros Hoff Hget Hcur. unfold LGEACClimate.async_set_hvac_mode.
  destruct (decide (m = HVAC_MODE_OFF)); [contradiction|].
  rewrite Hget. unfold bind at 1.
  rewrite (reader_run _ w hvac_mode_read_only).
  rewrite hvac_mode_run in Hcur |- *. simpl in Hcur |- *.
  destruct (decide (_ = Some HVAC_MODE_OFF)) as [Heq|]; [congruence|].
  reflexivity.
Qed.

(** What the log holds after switching on and then setting the mode. *)
Lemma power_then_mode_log n w :
  let c := on_device w (power true) in
  log (snd ((let! _ := await (_device (self w)) (power true) in
             fun w' => await (_device (self w')) (set_op_mode n) w') w)) =
  match fst (perform c (ext w)) with
  | None => log w ++ [c; on_device w (set_op_mode n)]
  | Some _ => log w ++ [c]
  end.
Proof.
  intros c. unfold bind.
  pose proof (await_result (_device (self w)) (power true) w) as Hres.
  pose proof (await_log (_device (self w)) (power true) w) as Hlog.
  pose proof (await_self (_device (self w)) (power true) w) as Hself.
  fold (on_device w (power true)) in Hres, Hlog. fold c in Hres, Hlog.
  destruct (await (_device (self w)) (power true) w) as [[[]|e] w1];
    simpl in Hres, Hlog, Hself; destruct (fst (perform c (ext w)));
    try discriminate.
  - rewrite await_log, Hlog, Hself, <- app_assoc. reflexivity.
  - simpl. exact Hlog.
Qed.

(** The log after asking for a supported mode other than OFF. *)
Lemma set_hvac_mode_supported_log m n w :
  m <> HVAC_MODE_OFF ->
  PyDict.get HVAC_MODE_REVERSE_LOOKUP m = Some n ->
  (fst (LGEACClimate.hvac_mode w) = Ok (Some HVAC_MODE_OFF) ->
   log (snd (LGEACClimate.async_set_hvac_mode m w)) =
     match fst (perform (on_device w (power true)) (ext w)) with
     | None => log w ++ [on_device w (power true); on_device w (set_op_mode n)]
     | Some _ => log w ++ [on_device w (power true)]
     end) /\
  (fst (LGEACClimate.hvac_mode w) <> Ok (Some HVAC_MODE_OFF) ->
   log (snd (LGEACClimate.async_set_hvac_mode m w)) =
     log w ++ [on_device w (set_op_mode n)]).
Proof.
  intros Hoff Hget. split; intros Hcur.
  - rewrite (set_hvac_mode_from_off m n w Hoff Hget Hcur).
    apply power_then_mode_log.
  - rewrite (set_hvac_mode_running m n w Hoff Hget Hcur).
    apply await_log.
Qed.

End SetMode.




(** An exception that comes out of an awaited call is the one the
    driver raised there. *)
Lemma await_raised `{DeviceDriver} d meth w e :
  fst (await d meth w) = Exc e ->
  fst (perform {| target := d; method := meth |} (ext w)) = Some e.
Proof.
  rewrite await_result.
  destruct (fst (perform _ _)) as [e'|]; [intros [= ->]; reflexivity | discriminate].
Qed.

(** The arguments the method has a branch for. *)
Lemma supported_cases m :
  m ∈ [ HVAC_MODE_OFF; HVAC_MODE_AUTO; HVAC_MODE_HEAT; HVAC_MODE_DRY;
        HVAC_MODE_COOL; HVAC_MODE_FAN_ONLY; HVAC_MODE_HEAT_COOL ] <->
  m = HVAC_MODE_OFF \/
  exists n, m <> HVAC_MODE_OFF /\ PyDict.get HVAC_MODE_REVERSE_LOOKUP m = Some n.
Proof.
  rewrite elem_of_cons. split.
  - intros [-> | Hin]; [left; reflexivity|].
    destruct (decide (m = HVAC_MODE_OFF)) as [|Hoff]; [left; assumption|].
    right. destruct (PyDict.get HVAC_MODE_REVERSE_LOOKUP m) as [n|] eqn:Hget.
    + exists n. split; [assumption | reflexivity].
    + apply reverse_get_None in Hget. contradiction.
  - intros [-> | (n & Hoff & Hget)]; [left; reflexivity | right].
    destruct (decide (m ∈ [ HVAC_MODE_AUTO; HVAC_MODE_HEAT; HVAC_MODE_DRY;
                            HVAC_MODE_COOL; HVAC_MODE_FAN_ONLY;
                            HVAC_MODE_HEAT_COOL ])) as [Hin|Hnin]; [exact Hin|].
    apply reverse_get_None in Hnin. congruence.
Qed.

(** With an argument it has a branch for, the method reaches the device,
    and whatever it raises the device raised. *)
Lemma supported_outcome `{DeviceDriver} m w :
  m = HVAC_MODE_OFF \/
  (exists n, m <> HVAC_MODE_OFF /\ PyDict.get HVAC_MODE_REVERSE_LOOKUP m = Some n) ->
  exists calls,
    log (snd (LGEACClimate.async_set_hvac_mode m w)) = log w ++ calls /\
    calls <> [] /\
    forall e, fst (LGEACClimate.async_set_hvac_mode m w) = Exc e ->
              raised_by_device calls e.
Proof.
  intros [-> | (n & Hoff & Hget)].
  - rewrite set_hvac_mode_off. exists [on_device w (power false)].
    split; [apply await_log|]. split; [discriminate|].
    intros e Hraise. apply await_raised in Hraise.
    exists (on_device w (power false)), (ext w). split; [left | exact Hraise].
  - destruct (decide (fst (LGEACClimate.hvac_mode w) = Ok (Some HVAC_MODE_OFF)))
      as [Hcur|Hcur].
    + rewrite (set_hvac_mode_from_off m n w Hoff Hget Hcur). unfold bind.
      pose proof (await_log (_device (self w)) (power true) w) as Hlog.
      pose proof (await_self (_device (self w)) (power true) w) as Hself.
      pose proof (await_raised (_device (self w)) (power true) w) as Hfirst.
      destruct (await (_device (self w)) (power true) w) as [[[]|e1] w1];
        simpl in Hlog, Hself, Hfirst.
      * exists [on_device w (power true); on_device w (set_op_mode n)].
        split; [rewrite await_log, Hlog, Hself, <- app_assoc; reflexivity|].
        split; [discriminate|].
        intros e Hraise. apply await_raised in Hraise. rewrite Hself in Hraise.
        exists (on_device w (set_op_mode n)), (ext w1).
        split; [right; left | exact Hraise].
      * exists [on_device w (power true)].
        split; [exact Hlog|]. split; [discriminate|].
        intros e [= <-]. exists (on_device w (power true)), (ext w).
        split; [left | apply Hfirst; reflexivity].
    + rewrite (set_hvac_mode_running m n w Hoff Hget Hcur).
      exists [on_device w (set_op_mode n)].
      split; [apply await_log|]. split; [discriminate|].
      intros e Hraise. apply await_raised in Hraise.
      exists (on_device w (set_op_mode n)), (ext w). split; [left | exact Hraise].
Qed.

(** C5, as amended: async_set_hvac_mode raises before any device call if
    and only if its argument is neither HVAC_MODE_OFF nor one of the six
    platform modes of the reverse table; what it raises then is the
    ValueError naming the argument, and the log of calls, the outside
    world and the adapter are as before.  With any other argument it
    issues at least one device call, and an exception that comes out, a
    ValueError included, is one a device method raised. *)
Theorem set_hvac_mode_value_error (D : DeviceDriver) (m : string) (w : World) :
  (m ∉ [ HVAC_MODE_OFF; HVAC_MODE_AUTO; HVAC_MODE_HEAT; HVAC_MODE_DRY;
         HVAC_MODE_COOL; HVAC_MODE_FAN_ONLY; HVAC_MODE_HEAT_COOL ] ->
   LGEACClimate.async_set_hvac_mode m w =
     (Exc (ValueError ("Invalid hvac_mode [" +:+ m +:+ "]")), w)) /\
  (m ∈ [ HVAC_MODE_OFF; HVAC_MODE_AUTO; HVAC_MODE_HEAT; HVAC_MODE_DRY;
         HVAC_MODE_COOL; HVAC_MODE_FAN_ONLY; HVAC_MODE_HEAT_COOL ] ->
   exists calls,
     log (snd (LGEACClimate.async_set_hvac_mode m w)) = log w ++ calls /\
     calls <> [] /\
     forall e, fst (LGEACClimate.async_set_hvac_mode m w) = Exc e ->
               raised_by_device calls e) /\
  ((exists e, fst (LGEACClimate.async_set_hvac_mode m w) = Exc e /\
              log (snd (LGEACClimate.async_set_hvac_mode m w)) = log w) <->
   m ∉ [ HVAC_MODE_OFF; HVAC_MODE_AUTO; HVAC_MODE_HEAT; HVAC_MODE_DRY;
         HVAC_MODE_COOL; HVAC_MODE_FAN_ONLY; HVAC_MODE_HEAT_COOL ]).
Proof.
  assert (Hinvalid :
    m ∉ [ HVAC_MODE_OFF; HVAC_MODE_AUTO; HVAC_MODE_HEAT; HVAC_MODE_DRY;
          HVAC_MODE_COOL; HVAC_MODE_FAN_ONLY; HVAC_MODE_HEAT_COOL ] ->
    LGEACClimate.async_set_hvac_mode m w =
      (Exc (ValueError ("Invalid hvac_mode [" +:+ m +:+ "]")), w)).
  { intros Hout. apply not_elem_of_cons in Hout as [Hoff Hout].
    apply set_hvac_mode_invalid; [exact Hoff | apply reverse_get_None, Hout]. }
  split; [exact Hinvalid|]. split.
  - intros Hin. apply supported_outcome, supported_cases, Hin.
  - split.
    + intros (e & _ & Hlog) Hin.
      destruct (supported_outcome m w (proj1 (supported_cases m) Hin))
        as (calls & Hcalls & Hsome & _).
      rewrite Hcalls in Hlog. apply Hsome.
      apply (app_inv_head (log w)). rewrite app_nil_r. exact Hlog.
    + intros Hout. rewrite (Hinvalid Hout). eexists. split; reflexivity.
Qed.

Lemma set_hvac_mode_value_error_witness :
  @LGEACClimate.async_set_hvac_mode obedient_driver "eco" demo_world =
    (Exc (ValueError "Invalid hvac_mode [eco]"), demo_world).
Proof.
  apply (proj1 (set_hvac_mode_value_error obedient_driver "eco" demo_world)).
  apply (bool_decide_unpack _). vm_compute. reflexivity.
Defined.

(** With a device that answers the calls with a ValueError of its own,
    the method raises ValueError although asked for OFF, and after the
    call was made: C5 as first stated fails there. *)
Lemma set_hvac_mode_value_error_counterexample :
  ~ ((exists msg,
        fst (@LGEACClimate.async_set_hvac_mode refusing_driver HVAC_MODE_OFF
               demo_world) = Exc (ValueError msg)) <->
     HVAC_MODE_OFF ∉ [ HVAC_MODE_OFF; HVAC_MODE_AUTO; HVAC_MODE_HEAT;
                       HVAC_MODE_DRY; HVAC_MODE_COOL; HVAC_MODE_FAN_ONLY;
                       HVAC_MODE_HEAT_COOL ]) /\
  log (snd (@LGEACClimate.async_set_hvac_mode refusing_driver HVAC_MODE_OFF
              demo_world)) =
    [ {| target := 0; method := power false |} ].
Proof.
  split; [|reflexivity].
  intros [Hraise _]. apply Hraise; [|left].
  exists "refused by the device". reflexivity.
Qed.

(** ** Setting the temperature *)

(** C8: every call of async_set_temperature calls set_target_temp on the
    device exactly once and makes no other device call; the argument is
    the 'temperature' keyword argument when there is one, and the
    target_temperature read from the device state otherwise. *)
Theorem set_temperature_single_call
    (D : DeviceDriver) (kwargs : gmap string value) (w : World) :
  let t := match kwargs !! "temperature" with
           | Some given => given
           | None => DeviceStatus.target_temp (seen_state w)
           end in
  LGEACClimate.async_set_temperature kwargs w =
    await (_device (self w)) (set_target_temp t) w /\
  log (snd (LGEACClimate.async_set_temperature kwargs w)) =
    log w ++ [on_device w (set_target_temp t)].
Proof.
  intros t.
  assert (Hrun : LGEACClimate.async_set_temperature kwargs w =
                 await (_device (self w)) (set_target_temp t) w).
  { unfold LGEACClimate.async_set_temperature, bind at 1, getattr_self at 1.
    unfold bind at 1. rewrite (reader_run _ w target_temperature_read_only).
    destruct (readers_run w) as (_ & -> & _).
    simpl. subst t. destruct (kwargs !! "temperature"); reflexivity. }
  split; [exact Hrun|]. rewrite Hrun. apply await_log.
Qed.

Lemma set_temperature_single_call_witness :
  log (snd (@LGEACClimate.async_set_temperature obedient_driver
              {[ "temperature" := VFloat (QArith_base.Qmake 47 2) ]} demo_world)) =
    [ {| target := 0; method := set_target_temp (VFloat (QArith_base.Qmake 47 2)) |} ] /\
  log (snd (@LGEACClimate.async_set_temperature obedient_driver
              {[ "target_temp_high" := VInt 26 ]} demo_world)) =
    [ {| target := 0; method := set_target_temp (VInt 22) |} ].
Proof.
  split.
  - etrans.
    + apply (proj2 (set_temperature_single_call obedient_driver
                      {[ "temperature" := VFloat (QArith_base.Qmake 47 2) ]} demo_world)).
    + rewrite lookup_singleton_eq. reflexivity.
  - etrans.
    + apply (proj2 (set_temperature_single_call obedient_driver
                      {[ "target_temp_high" := VInt 26 ]} demo_world)).
    + rewrite lookup_singleton_ne by discriminate. reflexivity.
Defined.

(** ** The round trip of a mode *)



Arguments PyDict.get : simpl never.

(** With a device that obeys, and whose wrapper the adapter reads, the
    mode asked for is the mode read back. *)
Lemma obedient_round_trip m n w :
  _api (self w) = _device (self w) ->
  m <> HVAC_MODE_OFF ->
  PyDict.get HVAC_MODE_REVERSE_LOOKUP m = Some n ->
  fst (LGEACClimate.hvac_mode
         (snd (@LGEACClimate.async_set_hvac_mode obedient_driver m w))) =
  Ok (Some m).
Proof.
  intros Hsame Hoff Hget.
  assert (Hback : PyDict.get HVAC_MODE_LOOKUP n = Some m)
    by (apply reverse_get, Hget).
  destruct (decide (fst (LGEACClimate.hvac_mode w) = Ok (Some HVAC_MODE_OFF)))
    as [Hcur|Hcur].
  - rewrite (@set_hvac_mode_from_off obedient_driver m n w Hoff Hget Hcur).
    rewrite hvac_mode_run. unfold seen_state, bind, await, obedient_driver.
    simpl. rewrite Hsame.
    repeat (case_decide; [|congruence]).
    simpl. rewrite Hback. reflexivity.
  - rewrite (@set_hvac_mode_running obedient_driver m n w Hoff Hget Hcur).
    rewrite hvac_mode_run in Hcur |- *.
    unfold seen_state, await, obedient_driver in Hcur |- *.
    simpl in Hcur |- *. rewrite Hsame in Hcur |- *.
    repeat (case_decide; [|congruence]).
    simpl. destruct (DeviceStatus.is_on _); [|congruence].
    rewrite Hback. reflexivity.
Qed.


(** ** More on the mode readers *)

(** OFF is no translation of a vendor mode. *)
Lemma lookup_never_off n :
  PyDict.get HVAC_MODE_LOOKUP n <> Some HVAC_MODE_OFF.
Proof.
  intros Hget. apply reverse_get in Hget.
  rewrite reverse_off in Hget. discriminate.
Qed.

(** Whatever the forward table returns is one of its six values. *)
Lemma lookup_range n m :
  PyDict.get HVAC_MODE_LOOKUP n = Some m ->
  m ∈ [ HVAC_MODE_AUTO; HVAC_MODE_HEAT; HVAC_MODE_DRY; HVAC_MODE_COOL;
        HVAC_MODE_FAN_ONLY; HVAC_MODE_HEAT_COOL ].
Proof.
  intros Hget. apply get_Some_elem_of in Hget.
  change [ HVAC_MODE_AUTO; HVAC_MODE_HEAT; HVAC_MODE_DRY; HVAC_MODE_COOL;
           HVAC_MODE_FAN_ONLY; HVAC_MODE_HEAT_COOL ]
    with (map snd HVAC_MODE_LOOKUP).
  change m with (snd (n, m)). apply list_elem_of_fmap_2. exact Hget.
Qed.

(** Two vendor names with the same translation are the same name. *)
Lemma lookup_injective n1 n2 m :
  PyDict.get HVAC_MODE_LOOKUP n1 = Some m ->
  PyDict.get HVAC_MODE_LOOKUP n2 = Some m -> n1 = n2.
Proof.
  intros H1 H2. apply reverse_get in H1. apply reverse_get in H2. congruence.
Qed.

(** X1: hvac_mode reports HVAC_MODE_OFF exactly when the device state
    says is_on false or operation_mode None: no vendor mode translates
    to OFF. *)
Theorem hvac_mode_off_iff (w : World) :
  fst (LGEACClimate.hvac_mode w) = Ok (Some HVAC_MODE_OFF) <->
  DeviceStatus.is_on (seen_state w) = false \/
  DeviceStatus.operation_mode (seen_state w) = None.
Proof.
  rewrite hvac_mode_run. simpl.
  destruct (DeviceStatus.is_on (seen_state w));
    destruct (DeviceStatus.operation_mode (seen_state w)) as [n|].
  - split.
    + intros [= Hget]. destruct (lookup_never_off n Hget).
    + intros [Hoff | Hnone]; discriminate.
  - split; auto.
  - split; auto.
  - split; auto.
Qed.

(** X2: hvac_mode never fails and never changes the store; its result is
    None or one of the seven platform modes, and it is None exactly when
    the device is on and reports a name the forward table does not
    hold. *)
Theorem hvac_mode_range (w : World) :
  exists r,
    LGEACClimate.hvac_mode w = (Ok r, w) /\
    (r = None \/
     exists m, r = Some m /\
       m ∈ [ HVAC_MODE_OFF; HVAC_MODE_AUTO; HVAC_MODE_HEAT; HVAC_MODE_DRY;
             HVAC_MODE_COOL; HVAC_MODE_FAN_ONLY; HVAC_MODE_HEAT_COOL ]) /\
    (r = None <->
     DeviceStatus.is_on (seen_state w) = true /\
     exists n, DeviceStatus.operation_mode (seen_state w) = Some n /\
               n ∉ map fst (PyDict.items HVAC_MODE_LOOKUP)).
Proof.
  rewrite hvac_mode_run. eexists. split; [reflexivity|].
  destruct (DeviceStatus.is_on (seen_state w));
    destruct (DeviceStatus.operation_mode (seen_state w)) as [n|].
  - destruct (PyDict.get HVAC_MODE_LOOKUP n) as [m|] eqn:Hget.
    + split.
      * right. exists m. split; [reflexivity|]. right. apply (lookup_range n m Hget).
      * split; [discriminate|].
        intros (_ & n' & [= <-] & Hout).
        apply get_None_not_key in Hout. unfold PyDict.items in Hout. congruence.
    + split; [left; reflexivity|]. split; [|reflexivity].
      intros _. split; [reflexivity|]. exists n. split; [reflexivity|].
      apply get_None_not_key. exact Hget.
  - split; [right; exists HVAC_MODE_OFF; split; [reflexivity | left]|].
    split; [discriminate | intros (_ & n & Hn & _); discriminate].
  - split; [right; exists HVAC_MODE_OFF; split; [reflexivity | left]|].
    split; [discriminate | intros (Hon & _); discriminate].
  - split; [right; exists HVAC_MODE_OFF; split; [reflexivity | left]|].
    split; [discriminate | intros (Hon & _); discriminate].
Qed.

(** ** The advertised modes *)

Lemma hvac_modes_run w :
  LGEACClimate.hvac_modes w =
  (Ok (Some HVAC_MODE_OFF ::
       map (PyDict.get HVAC_MODE_LOOKUP)
           (List.filter (PyDict.contains HVAC_MODE_LOOKUP)
                        (AirConditionerDevice.op_modes (seen_device w)))), w).
Proof. reflexivity. Qed.

Section Translate.
Context {K V : Type} `{EqDecision K}.
Implicit Types (d : PyDict.dict K V) (l : list K).

(** Looking up the keys a dictionary holds: what comes out, in terms of
    what went in. *)
Lemma elem_of_translated d l x :
  x ∈ map (PyDict.get d) (List.filter (PyDict.contains d) l) <->
  exists k v, x = Some v /\ k ∈ l /\ PyDict.get d k = Some v.
Proof.
  induction l as [|k l IH]; simpl.
  - split; [intros Hin; inversion Hin | intros (k & v & _ & Hin & _); inversion Hin].
  - unfold PyDict.contains at 1.
    destruct (PyDict.get d k) as [v|] eqn:Hget; simpl.
    + rewrite elem_of_cons, IH. split.
      * intros [-> | (k' & v' & -> & Hin & Hget')].
        -- exists k, v. rewrite <- Hget. repeat split. left.
        -- exists k', v'. repeat split; [right; exact Hin | exact Hget'].
      * intros (k' & v' & -> & Hin & Hget').
        apply elem_of_cons in Hin as [-> | Hin].
        -- left. congruence.
        -- right. exists k', v'. auto.
    + rewrite IH. split.
      * intros (k' & v' & -> & Hin & Hget').
        exists k', v'. repeat split; [right; exact Hin | exact Hget'].
      * intros (k' & v' & -> & Hin & Hget').
        apply elem_of_cons in Hin as [-> | Hin]; [congruence|].
        exists k', v'. auto.
Qed.

Lemma translated_length d l :
  length (map (PyDict.get d) (List.filter (PyDict.contains d) l)) <= length l.
Proof.
  rewrite length_map. induction l as [|k l IH]; simpl; [lia|].
  destruct (PyDict.contains d k); simpl; lia.
Qed.

End Translate.

(** X3: hvac_modes never fails; its list starts with HVAC_MODE_OFF, and
    the rest holds exactly the translations of those op_modes of the
    device that the forward table knows.  So the rest has no None and no
    second OFF, unknown vendor modes are dropped silently, and the list
    is at most one longer than op_modes. *)
Theorem hvac_modes_shape (w : World) :
  exists rest,
    LGEACClimate.hvac_modes w = (Ok (Some HVAC_MODE_OFF :: rest), w) /\
    (forall x, x ∈ rest <->
       exists n m, x = Some m /\
                   n ∈ AirConditionerDevice.op_modes (seen_device w) /\
                   PyDict.get HVAC_MODE_LOOKUP n = Some m) /\
    (None ∉ rest) /\
    (Some HVAC_MODE_OFF ∉ rest) /\
    length rest <= length (AirConditionerDevice.op_modes (seen_device w)).
Proof.
  rewrite hvac_modes_run. eexists. split; [reflexivity|].
  split; [intros x; apply elem_of_translated|].
  split; [|split].
  - intros Hin. apply elem_of_translated in Hin as (n & m & Hx & _). discriminate.
  - intros Hin. apply elem_of_translated in Hin as (n & m & [= <-] & _ & Hget).
    destruct (lookup_never_off n Hget).
  - apply translated_length.
Qed.

(** X4: every mode hvac_modes advertises is accepted by
    async_set_hvac_mode.  Asked for such a mode, in any store and with
    any device, the method does not take the branch that raises its
    ValueError: it issues at least one device call, and an exception
    that comes out of it is one a device method raised. *)
Theorem advertised_modes_accepted
    (D : DeviceDriver) (w w' : World) (l : list (option string)) (m : string) :
  fst (LGEACClimate.hvac_modes w) = Ok l ->
  Some m ∈ l ->
  LGEACClimate.async_set_hvac_mode m w' <>
    (Exc (ValueError ("Invalid hvac_mode [" +:+ m +:+ "]")), w') /\
  exists calls,
    log (snd (LGEACClimate.async_set_hvac_mode m w')) = log w' ++ calls /\
    calls <> [] /\
    forall e, fst (LGEACClimate.async_set_hvac_mode m w') = Exc e ->
              raised_by_device calls e.
Proof.
  rewrite hvac_modes_run. intros [= <-] Hin.
  assert (Hbranch :
    m = HVAC_MODE_OFF \/
    exists n, m <> HVAC_MODE_OFF /\ PyDict.get HVAC_MODE_REVERSE_LOOKUP m = Some n).
  { apply elem_of_cons in Hin as [[= ->] | Hin]; [left; reflexivity | right].
    apply elem_of_translated in Hin as (n & m' & [= <-] & _ & Hget).
    exists n. split; [|apply reverse_get, Hget].
    intros ->. destruct (lookup_never_off n Hget). }
  destruct (supported_outcome m w' Hbranch) as (calls & Hlog & Hsome & Hraised).
  split.
  - intros Hown. rewrite Hown in Hlog. simpl in Hlog. apply Hsome.
    apply (app_inv_head (log w')). rewrite app_nil_r. symmetry. exact Hlog.
  - exists calls. auto.
Qed.

Lemma advertised_modes_accepted_witness :
  @LGEACClimate.async_set_hvac_mode refusing_driver "dry"
    (demo_world_in off_status) <>
  (Exc (ValueError "Invalid hvac_mode [dry]"), demo_world_in off_status).
Proof.
  apply (advertised_modes_accepted refusing_driver demo_world
           (demo_world_in off_status)
           [Some "off"; Some "cool"; Some "dry"; Some "fan_only"; Some "auto"]
           "dry" eq_refl).
  apply (bool_decide_unpack _). vm_compute. reflexivity.
Defined.

(** X5: the mode hvac_mode reports is among the modes hvac_modes
    advertises exactly when the device is off, or reports no mode, or
    reports a mode that is both one of its own op_modes and a key of the
    forward table.  (A device running a mode it does not list, or an
    unknown one, shows a mode outside the advertised list.) *)
Theorem current_mode_advertised_iff (w : World) :
  exists r l,
    fst (LGEACClimate.hvac_mode w) = Ok r /\
    fst (LGEACClimate.hvac_modes w) = Ok l /\
    (r ∈ l <->
     DeviceStatus.is_on (seen_state w) = false \/
     DeviceStatus.operation_mode (seen_state w) = None \/
     exists n, DeviceStatus.operation_mode (seen_state w) = Some n /\
               n ∈ AirConditionerDevice.op_modes (seen_device w) /\
               n ∈ map fst (PyDict.items HVAC_MODE_LOOKUP)).
Proof.
  rewrite hvac_mode_run, hvac_modes_run. do 2 eexists.
  split; [reflexivity|]. split; [reflexivity|]. simpl.
  destruct (DeviceStatus.is_on (seen_state w));
    destruct (DeviceStatus.operation_mode (seen_state w)) as [n|];
    try (split; [auto | intros _; left]; fail).
  rewrite elem_of_cons, elem_of_translated. split.
  - intros [Hoff | (n' & m & Hget & Hin & Hget')].
    + destruct (lookup_never_off n Hoff).
    + right. right. exists n. split; [reflexivity|].
      assert (n = n') as <- by (apply (lookup_injective n n' m); assumption).
      split; [exact Hin|]. unfold PyDict.items.
      destruct (decide (n ∈ map fst HVAC_MODE_LOOKUP)) as [|Hout]; [assumption|].
      apply get_None_not_key in Hout. congruence.
  - intros [Hoff | [Hnone | (n' & [= <-] & Hin & Hkey)]]; try discriminate.
    right. destruct (PyDict.get HVAC_MODE_LOOKUP n) as [m|] eqn:Hget.
    + exists n, m. auto.
    + apply get_None_not_key in Hget. contradiction.
Qed.

(** ** What the coroutines do to the store *)

Lemma device_only_reader {A : Type} (m : M A) :
  read_only m -> device_only m.
Proof.
  intros Hm w. rewrite (Hm w). split; [reflexivity|].
  exists []. split; [symmetry; apply app_nil_r | constructor].
Qed.

Lemma device_only_raise {A : Type} (e : Exn) : device_only (@raise A e).
Proof.
  intros w. split; [reflexivity|].
  exists []. split; [symmetry; apply app_nil_r | constructor].
Qed.

Lemma device_only_bind {A B : Type} (m : M A) (k : A -> M B) :
  device_only m -> (forall a, device_only (k a)) -> device_only (bind m k).
Proof.
  intros Hm Hk w. unfold bind.
  destruct (Hm w) as (Hself & calls & Hlog & Htargets).
  destruct (m w) as [[a|e] w1]; simpl in Hself, Hlog.
  - destruct (Hk a w1) as (Hself' & calls' & Hlog' & Htargets').
    split; [congruence|]. exists (calls ++ calls'). split.
    + rewrite Hlog', Hlog, app_assoc. reflexivity.
    + apply Forall_app. split; [exact Htargets|].
      rewrite Hself in Htargets'. exact Htargets'.
  - split; [exact Hself|]. exists calls. split; assumption.
Qed.

(** [await self._device.method(...)] *)
Lemma device_only_call `{DeviceDriver} (meth : Method) :
  device_only (let! d := getattr_self _device in await d meth).
Proof.
  intros w. unfold bind, getattr_self. split; [apply await_self|].
  exists [on_device w meth]. split; [apply await_log|].
  constructor; [reflexivity | constructor].
Qed.

Lemma set_hvac_mode_device_only `{DeviceDriver} m :
  device_only (LGEACClimate.async_set_hvac_mode m).
Proof.
  unfold LGEACClimate.async_set_hvac_mode.
  destruct (decide (m = HVAC_MODE_OFF)) as [|Hoff]; [apply device_only_call|].
  destruct (PyDict.get HVAC_MODE_REVERSE_LOOKUP m) as [n|];
    [|apply device_only_raise].
  apply device_only_bind; [apply device_only_reader, hvac_mode_read_only|].
  intros current. apply device_only_bind; [|intros _; apply device_only_call].
  destruct (decide (current = Some HVAC_MODE_OFF));
    [apply device_only_call | apply device_only_reader, read_only_ret].
Qed.

Lemma set_temperature_device_only `{DeviceDriver} kwargs :
  device_only (LGEACClimate.async_set_temperature kwargs).
Proof.
  intros w. unfold LGEACClimate.async_set_temperature, bind at 1, getattr_self at 1.
  unfold bind. rewrite (reader_run _ w target_temperature_read_only).
  destruct (readers_run w) as (_ & -> & _). simpl.
  split; [apply await_self|].
  eexists [_]. split; [apply await_log|].
  constructor; [reflexivity | constructor].
Qed.

(** X6: every coroutine of the adapter (async_set_hvac_mode,
    async_set_temperature, async_set_fan_mode, async_turn_on,
    async_turn_off), with any argument, any device and whether or not it
    raises, leaves the fields of the adapter as they were, only appends
    to the log of device calls, and addresses every call to the object
    in _device. *)
Theorem coroutines_device_only (D : DeviceDriver) :
  (forall m, device_only (LGEACClimate.async_set_hvac_mode m)) /\
  (forall kwargs, device_only (LGEACClimate.async_set_temperature kwargs)) /\
  (forall f, device_only (LGEACClimate.async_set_fan_mode f)) /\
  device_only LGEACClimate.async_turn_on /\
  device_only LGEACClimate.async_turn_off.
Proof.
  split; [intros m; apply set_hvac_mode_device_only|].
  split; [intros kwargs; apply set_temperature_device_only|].
  split; [intros f|split]; apply device_only_call.
Qed.

(** X7: asked for a supported mode other than OFF, async_set_hvac_mode
    makes at most two calls, each either power(True) or set_op_mode with
    the vendor name; it never calls power(False); and power(True) is
    among the calls exactly when the state says is_on false or
    operation_mode None (so a device that is on but reports no mode is
    switched on again). *)
Theorem set_hvac_mode_power_on_iff
    (D : DeviceDriver) (m n : string) (w : World) :
  m <> HVAC_MODE_OFF ->
  PyDict.get HVAC_MODE_REVERSE_LOOKUP m = Some n ->
  exists calls,
    log (snd (LGEACClimate.async_set_hvac_mode m w)) = log w ++ calls /\
    (on_device w (power true) ∈ calls <->
     DeviceStatus.is_on (seen_state w) = false \/
     DeviceStatus.operation_mode (seen_state w) = None) /\
    (on_device w (power false) ∉ calls) /\
    (forall c, c ∈ calls ->
       c = on_device w (power true) \/ c = on_device w (set_op_mode n)) /\
    length calls <= 2.
Proof.
  intros Hoff Hget.
  destruct (set_hvac_mode_supported_log m n w Hoff Hget) as [Hfrom_off Hrunning].
  assert (Hstate :
    fst (LGEACClimate.hvac_mode w) = Ok (Some HVAC_MODE_OFF) <->
    DeviceStatus.is_on (seen_state w) = false \/
    DeviceStatus.operation_mode (seen_state w) = None).
  { rewrite hvac_mode_run. simpl.
    destruct (DeviceStatus.is_on (seen_state w));
      destruct (DeviceStatus.operation_mode (seen_state w)) as [k|];
      split; auto; try (intros [?|?]; discriminate).
    intros [= Hk]. destruct (lookup_never_off k Hk). }
  destruct (decide (fst (LGEACClimate.hvac_mode w) = Ok (Some HVAC_MODE_OFF)))
    as [Hcur|Hcur].
  - specialize (Hfrom_off Hcur).
    destruct (fst (perform (on_device w (power true)) (ext w)));
      eexists; (split; [exact Hfrom_off|]);
      (split; [split; [intros _; apply Hstate, Hcur | intros _; left]|]);
      (split; [intros Hin; repeat (apply elem_of_cons in Hin as [Hin|Hin];
                                   [discriminate Hin|]); inversion Hin|]);
      (split; [|simpl; lia]);
      intros c Hin;
      repeat (apply elem_of_cons in Hin as [->|Hin]; [auto|]); inversion Hin.
  - specialize (Hrunning Hcur). eexists. split; [exact Hrunning|].
    split; [split|].
    + intros Hin. apply elem_of_cons in Hin as [Hin|Hin];
        [discriminate Hin | inversion Hin].
    + intros Hst. destruct Hcur. apply Hstate, Hst.
    + split; [|split; [|simpl; lia]].
      * intros Hin. apply elem_of_cons in Hin as [Hin|Hin];
          [discriminate Hin | inversion Hin].
      * intros c Hin. apply elem_of_cons in Hin as [->|Hin];
          [auto | inversion Hin].
Qed.

Lemma set_hvac_mode_power_on_iff_witness :
  exists calls,
    log (snd (@LGEACClimate.async_set_hvac_mode obedient_driver HVAC_MODE_COOL
                (demo_world_in off_status))) = [] ++ calls /\
    length calls <= 2.
Proof.
  destruct (set_hvac_mode_power_on_iff obedient_driver HVAC_MODE_COOL "COOL"
              (demo_world_in off_status) ltac:(discriminate) eq_refl)
    as (calls & Hlog & _ & _ & _ & Hlen).
  exists calls. split; [exact Hlog | exact Hlen].
Defined.

(** ** The keyword arguments of async_set_temperature *)

Lemma set_temperature_run `{DeviceDriver} (kwargs : gmap string value) w :
  LGEACClimate.async_set_temperature kwargs w =
  await (_device (self w))
        (set_target_temp (default (DeviceStatus.target_temp (seen_state w))
                                  (kwargs !! "temperature"))) w.
Proof.
  unfold LGEACClimate.async_set_temperature, bind at 1, getattr_self at 1.
  unfold bind. rewrite (reader_run _ w target_temperature_read_only).
  destruct (readers_run w) as (_ & -> & _). reflexivity.
Qed.

(** X9: async_set_temperature looks at the 'temperature' keyword only:
    adding or changing any other keyword argument changes nothing.  A
    value given under 'temperature' is passed on as it is, be it None or
    a temperature outside min_temp and max_temp: there is no clamping
    and no fallback for an explicit None. *)
Theorem set_temperature_keywords
    (D : DeviceDriver) (kwargs : gmap string value) (w : World) :
  (forall k v, k <> "temperature" ->
     LGEACClimate.async_set_temperature (<[k := v]> kwargs) w =
     LGEACClimate.async_set_temperature kwargs w) /\
  (forall v,
     LGEACClimate.async_set_temperature (<["temperature" := v]> kwargs) w =
     await (_device (self w)) (set_target_temp v) w).
Proof.
  split.
  - intros k v Hk. rewrite !set_temperature_run.
    rewrite lookup_insert_ne by exact Hk. reflexivity.
  - intros v. rewrite set_temperature_run, lookup_insert_eq. reflexivity.
Qed.

Lemma set_temperature_keywords_witness :
  @LGEACClimate.async_set_temperature obedient_driver
     (<["hvac_mode" := VStr "cool"]> {[ "temperature" := VInt 24 ]}) demo_world =
  @LGEACClimate.async_set_temperature obedient_driver
     {[ "temperature" := VInt 24 ]} demo_world.
Proof.
  apply (proj1 (set_temperature_keywords obedient_driver
                  {[ "temperature" := VInt 24 ]} demo_world)).
  discriminate.
Defined.

(** ** Identity of the entity *)

Lemma list_ascii_of_append s t :
  Stdlib.Strings.String.list_ascii_of_string (s +:+ t) =
  Stdlib.Strings.String.list_ascii_of_string s ++
  Stdlib.Strings.String.list_ascii_of_string t.
Proof.
  induction s as [|a s IH]; [reflexivity|].
  change (String a s +:+ t) with (String a (s +:+ t)).
  simpl. rewrite IH. reflexivity.
Qed.

Lemma append_cancel_r s1 s2 t : s1 +:+ t = s2 +:+ t -> s1 = s2.
Proof.
  intros Heq. apply (f_equal Stdlib.Strings.String.list_ascii_of_string) in Heq.
  rewrite !list_ascii_of_append in Heq. apply app_inv_tail in Heq.
  rewrite <- (Stdlib.Strings.String.string_of_list_ascii_of_string s1),
          <- (Stdlib.Strings.String.string_of_list_ascii_of_string s2).
  congruence.
Qed.

(** X10: unique_id is read through from the wrapper's unique_id with
    the suffix -AC, and keeps identifiers apart: two stores give the
    same unique_id exactly when the wrappers' identifiers are equal. *)
Theorem unique_id_injective (w1 w2 : World) :
  let id_of w := LGEDevice.unique_id (api_at (ext w) (_api (self w))) in
  LGEACClimate.unique_id w1 = (Ok (id_of w1 +:+ "-AC"), w1) /\
  (fst (LGEACClimate.unique_id w1) = fst (LGEACClimate.unique_id w2) <->
   id_of w1 = id_of w2).
Proof.
  intros id_of.
  assert (Hrun : forall w,
    LGEACClimate.unique_id w = (Ok (id_of w +:+ "-AC"), w)) by reflexivity.
  split; [apply Hrun|]. rewrite !Hrun. simpl. split.
  - intros [= Heq]. apply (append_cancel_r _ _ _ Heq).
  - intros ->. reflexivity.
Qed.

(** X11: the name of the entity is the one exception to reading
    through: it is the wrapper's name as __init__ found it, kept in
    _name.  What the outside world or the log become later does not
    show in it, and no reader or coroutine of the adapter changes it. *)
Theorem name_fixed_at_construction :
  (forall device ac_device w,
     fst (LGEACClimate.name (snd (LGEACClimate.__init__ device ac_device w))) =
     Ok (LGEDevice.name (api_at (ext w) device))) /\
  (forall w e' l',
     fst (LGEACClimate.name {| self := self w; ext := e'; log := l' |}) =
     fst (LGEACClimate.name w)) /\
  (forall (A : Type) (m : M A),
     device_only m ->
     forall w, fst (LGEACClimate.name (snd (m w))) = fst (LGEACClimate.name w)).
Proof.
  split; [|split].
  - intros device ac_device w. reflexivity.
  - intros w e' l'. reflexivity.
  - intros A m Hm w. destruct (Hm w) as [Hself _].
    unfold LGEACClimate.name, getattr_self. simpl. rewrite Hself. reflexivity.
Qed.

Lemma name_fixed_at_construction_witness :
  fst (LGEACClimate.name
         (snd (@LGEACClimate.async_set_hvac_mode obedient_driver HVAC_MODE_DRY
                 demo_world))) =
  fst (LGEACClimate.name demo_world).
Proof.
  apply (proj2 (proj2 name_fixed_at_construction) unit
           (@LGEACClimate.async_set_hvac_mode obedient_driver HVAC_MODE_DRY)).
  apply set_hvac_mode_device_only.
Defined.

(** ** Platform setup *)

Section SetupFacts.
Context {DeviceType : Type} `{EqDecision DeviceType}.
Variables (DOMAIN LGE_DEVICES : string) (AC : DeviceType).
Variable hass_data :
  PyDict.dict string (PyDict.dict string (PyDict.dict DeviceType (list api_ref))).
Variables (device_attr : api_ref -> ac_ref) (e : External).

(** A new adapter is wired to the objects it was given. *)
Lemma construct_fields device ac_device :
  construct e device ac_device =
  {| _api := device; _device := ac_device;
     _name := LGEDevice.name (api_at e device) |}.
Proof. reflexivity. Qed.

(** X12: when the integration holds a non-empty device dictionary,
    async_setup_entry calls async_add_entities once, with one adapter
    for each air conditioner of the dictionary, in the dictionary's
    order: the i-th adapter has the i-th wrapper in _api, that wrapper's
    device in _device and its name in _name.  Devices of other types
    give no adapter. *)
Theorem setup_one_adapter_per_ac entry_config lge_devices :
  PyDict.get hass_data DOMAIN = Some entry_config ->
  PyDict.get entry_config LGE_DEVICES = Some lge_devices ->
  lge_devices <> [] ->
  exists climates,
    async_setup_entry DOMAIN LGE_DEVICES AC hass_data device_attr e =
      Returned [climates] /\
    length climates = length (default [] (PyDict.get lge_devices AC)) /\
    (forall i d,
       default [] (PyDict.get lge_devices AC) !! i = Some d ->
       climates !! i =
         Some {| _api := d; _device := device_attr d;
                 _name := LGEDevice.name (api_at e d) |}).
Proof.
  intros Hcfg Hdevs Hnonempty. unfold async_setup_entry.
  rewrite Hcfg, Hdevs.
  destruct lge_devices as [|item others]; [contradiction|].
  eexists. split; [reflexivity|]. simpl. split.
  - apply length_map.
  - intros i d Hi.
    change (map ?f ?l) with (f <$> l).
    rewrite list_lookup_fmap, Hi. reflexivity.
Qed.

(** X13: the other ways through async_setup_entry.  It fails with
    KeyError exactly when hass.data has no entry for the domain; it
    returns without calling async_add_entities exactly when that entry
    has no device dictionary or an empty one; and with a device
    dictionary that holds no air conditioner it still calls
    async_add_entities, with an empty list. *)
Theorem setup_edge_cases :
  (forall key,
     async_setup_entry DOMAIN LGE_DEVICES AC hass_data device_attr e = KeyError key <->
     key = DOMAIN /\ PyDict.get hass_data DOMAIN = None) /\
  (async_setup_entry DOMAIN LGE_DEVICES AC hass_data device_attr e = Returned [] <->
   exists entry_config,
     PyDict.get hass_data DOMAIN = Some entry_config /\
     (PyDict.get entry_config LGE_DEVICES = None \/
      PyDict.get entry_config LGE_DEVICES = Some [])) /\
  (forall entry_config lge_devices,
     PyDict.get hass_data DOMAIN = Some entry_config ->
     PyDict.get entry_config LGE_DEVICES = Some lge_devices ->
     lge_devices <> [] ->
     PyDict.get lge_devices AC = None ->
     async_setup_entry DOMAIN LGE_DEVICES AC hass_data device_attr e = Returned [[]]).
Proof.
  unfold async_setup_entry. split; [|split].
  - intros key. destruct (PyDict.get hass_data DOMAIN) as [cfg|].
    + split; [|intros [_ Hnone]; discriminate].
      destruct (PyDict.get cfg LGE_DEVICES) as [[|item others]|]; discriminate.
    + split; [intros [= <-]; auto | intros [-> _]; reflexivity].
  - destruct (PyDict.get hass_data DOMAIN) as [cfg|].
    + destruct (PyDict.get cfg LGE_DEVICES) as [[|item others]|] eqn:Hdevs.
      * split; [intros _; exists cfg; auto | reflexivity].
      * split; [discriminate|].
        intros (cfg' & [= <-] & [Hnone | Hempty]); congruence.
      * split; [intros _; exists cfg; auto | reflexivity].
    + split; [discriminate | intros (cfg & Hcfg & _); discriminate].
  - intros cfg devs -> -> Hnonempty Hnone.
    destruct devs as [|item others]; [contradiction|].
    rewrite Hnone. reflexivity.
Qed.

End SetupFacts.

Lemma setup_one_adapter_per_ac_witness :
  exists climates,
    async_setup_entry "smartthinq_sensors" "lge_devices" 401%Z demo_hass_data
      (fun r => r + 10) (ext demo_world) = Returned [climates] /\
    climates !! 1 =
      Some {| _api := 1; _device := 11; _name := "Living room" |}.
Proof.
  destruct (setup_one_adapter_per_ac "smartthinq_sensors" "lge_devices" 401%Z
              demo_hass_data (fun r => r + 10) (ext demo_world)
              [ ("lge_devices", [ (201%Z, [5]); (401%Z, [0; 1]) ]) ]
              [ (201%Z, [5]); (401%Z, [0; 1]) ]
              eq_refl eq_refl ltac:(discriminate))
    as (climates & Hrun & _ & Hwired).
  exists climates. split; [exact Hrun|].
  apply (Hwired 1 1). reflexivity.
Defined.
